(** * Host type correspondence of the Fortran evaluator (flang/lib/evaluate/host.h)

    The header maps Fortran intrinsic types [Type<category, KIND>] to the
    hardware types of the machine the compiler runs on, by template
    specialisation.  Templates are type-level functions: here they are
    functions over a small universe [CppType] of the C++ types the header
    mentions, and the facts the preprocessor and [std::numeric_limits]
    supply are collected in a record [HostABI]. *)

From Stdlib Require Import ZArith NArith List Bool Lia.
From Stdlib Require Import Strings.Byte.
From Equations Require Import Equations.
Import ListNotations.

(** ** The C++ types of the header *)

Inductive TypeCategory : Set :=
  Integer | Real | Complex | Character | Logical.

(** [Type_ cat KIND] is [Fortran::evaluate::Type<cat, KIND>]; [Scalar T] is
    the scalar class of [T] (declared in type.h) and is kept symbolic. *)
Inductive CppType : Set :=
| UnsupportedType
| UnknownType
| void
| int8_t | int16_t | int32_t | int64_t | int128_t
| uint8_t
| float | double | long_double
| std_complex (T : CppType)
| Type_ (category : TypeCategory) (KIND : Z)
| Scalar (T : CppType).

Definition TypeCategory_eq_dec (a b : TypeCategory) : {a = b} + {a <> b}.
Proof. decide equality. Defined.

Definition CppType_eq_dec (a b : CppType) : {a = b} + {a <> b}.
Proof. decide equality; [apply Z.eq_dec | apply TypeCategory_eq_dec]. Defined.

Definition is_same_v (a b : CppType) : bool :=
  if CppType_eq_dec a b then true else false.

Definition conditional_t (b : bool) (T F : CppType) : CppType :=
  if b then T else F.

(** What the build knows about the host: [sizeof], [std::numeric_limits]
    and the preprocessor test guarding [__int128_t]. *)
Record HostABI : Set := {
  sizeof_float : nat;
  float_is_iec559 : bool;
  sizeof_double : nat;
  double_is_iec559 : bool;
  sizeof_long_double : nat;
  long_double_digits : Z;
  long_double_max_exponent : Z;
  has_int128 : bool
}.

(** ** Type mapping from F18 types to host types *)

Section Mapping.
Variable h : HostABI.

Local Open Scope Z_scope.

Definition HostTypeHelper_Integer (KIND : Z) : CppType :=
  if KIND =? 1 then int8_t
  else if KIND =? 2 then int16_t
  else if KIND =? 4 then int32_t
  else if KIND =? 8 then int64_t
  else if KIND =? 16 then (if has_int128 h then int128_t else UnsupportedType)
  else UnsupportedType.

Definition HostTypeHelper_Real (KIND : Z) : CppType :=
  if KIND =? 4 then
    conditional_t (Nat.eqb (sizeof_float h) 4 && float_is_iec559 h)
      float UnsupportedType
  else if KIND =? 8 then
    conditional_t (Nat.eqb (sizeof_double h) 8 && double_is_iec559 h)
      double UnsupportedType
  else if KIND =? 10 then
    conditional_t (Nat.leb 10 (sizeof_long_double h)
                   && (long_double_digits h =? 64)
                   && (long_double_max_exponent h =? 16384))
      long_double UnsupportedType
  else if KIND =? 16 then
    conditional_t (Nat.eqb (sizeof_long_double h) 16
                   && (long_double_digits h =? 113)
                   && (long_double_max_exponent h =? 16384))
      long_double UnsupportedType
  else UnsupportedType.

(** The primary template and its specialisations.  In the Complex case
    [RealT] stands for [HostType<RealT>], the host type of the Real type of
    the same kind, and [HostTypeExists<RealT>()] is the test that it is not
    [UnsupportedType]. *)
Definition HostTypeHelper (FTN_T : CppType) : CppType :=
  match FTN_T with
  | Type_ Integer KIND => HostTypeHelper_Integer KIND
  | Type_ Real KIND => HostTypeHelper_Real KIND
  | Type_ Complex KIND =>
      let RealT := HostTypeHelper_Real KIND in
      conditional_t (negb (is_same_v RealT UnsupportedType))
        (std_complex RealT) UnsupportedType
  | Type_ Logical KIND => conditional_t (KIND <=? 8) uint8_t UnsupportedType
  | Type_ Character KIND => Scalar (Type_ Character KIND)
  | _ => UnsupportedType
  end.

Definition HostType (FTN_T : CppType) : CppType := HostTypeHelper FTN_T.

(** [HostTypeExists<T...>()] folds [&&] over the pack. *)
Definition HostTypeExists (Ts : list CppType) : bool :=
  forallb (fun T => negb (is_same_v (HostType T) UnsupportedType)) Ts.

End Mapping.

(** ** Type mapping from host types to F18 types *)

(** Modelled from the spec: [common::MapTemplate] and [common::TypeIndex]
    (common/template.h) are not among the sources.  The inverse table is
    "built by inverting the forward table": [MapTemplate] applies the type
    function to every element of the tuple, and [TypeIndex] is the
    zero-based position of the first element equal to the type looked up,
    or -1 when none is. *)
Definition MapTemplate (F : CppType -> CppType) (TS : list CppType)
  : list CppType := map F TS.

Fixpoint TypeIndex (T : CppType) (TT : list CppType) : Z :=
  match TT with
  | [] => -1
  | U :: TT' =>
      if is_same_v T U then 0
      else let i := TypeIndex T TT' in
           if (i <? 0)%Z then -1 else (i + 1)
  end%Z.

Definition IndexInTupleHelper (T : CppType) (TT : list CppType) : Z :=
  TypeIndex T TT.

(** [std::tuple_element_t<index, TS>], which exists only for an index in
    range: every lookup below is at a type that is found, at an index
    >= 0. *)
Definition tuple_element_t (index : Z) (TS : list CppType) : CppType :=
  nth (Z.to_nat index) TS void.

Section Inverse.
Variable h : HostABI.
(** [AllIntrinsicTypes] is the tuple of intrinsic types of type.h. *)
Variable AllIntrinsicTypes : list CppType.

Definition HostTypeMapping : list CppType :=
  MapTemplate (HostType h) AllIntrinsicTypes.

Definition FortranTypeHelper_index (HOST_T : CppType) : Z :=
  IndexInTupleHelper HOST_T HostTypeMapping.

Definition FortranTypeHelper (HOST_T : CppType) : CppType :=
  let index := FortranTypeHelper_index HOST_T in
  conditional_t (0 <=? index)%Z
    (tuple_element_t index AllIntrinsicTypes) UnknownType.

Definition FortranType (HOST_T : CppType) : CppType :=
  FortranTypeHelper HOST_T.

Definition FortranTypeExists (HT : list CppType) : bool :=
  forallb (fun T => negb (is_same_v (FortranType T) UnknownType)) HT.

End Inverse.

(** ** Bigger types that exist on the host *)

Definition NextBiggerReal (cat : TypeCategory) (KIND : Z) : CppType :=
  (if KIND =? 2 then Type_ cat 4
   else if KIND =? 3 then Type_ cat 4
   else if KIND =? 4 then Type_ cat 8
   else if KIND =? 8 then Type_ cat 10
   else if KIND =? 10 then Type_ cat 16
   else void)%Z.

(** The two member types of [BiggerOrSameHostTypeHelper<T>]. *)
Record Helper : Set := {
  Helper_Type : CppType;
  Helper_FortranType : CppType
}.

(** Number of [NextBiggerReal] steps that remain from a kind; the
    template recursion of the Real and Complex specialisations goes down
    this measure. *)
Definition chain_rank (T : CppType) : nat :=
  match T with
  | Type_ _ KIND =>
      if (KIND =? 2)%Z then 5 else if (KIND =? 3)%Z then 5
      else if (KIND =? 4)%Z then 4 else if (KIND =? 8)%Z then 3
      else if (KIND =? 10)%Z then 2 else 1
  | _ => 0
  end.

Ltac chain_rank_decreases :=
  unfold NextBiggerReal, chain_rank;
  repeat match goal with
         | |- context [Z.eqb ?k ?c] =>
             is_var k; destruct (Z.eqb_spec k c); [subst k; cbn; lia|]
         end;
  cbn; lia.

Section Bigger.
Variable h : HostABI.

Equations BiggerOrSameHostTypeHelper (T : CppType) : Helper
  by wf (chain_rank T) lt :=
BiggerOrSameHostTypeHelper (Type_ Real KIND) :=
  let T := Type_ Real KIND in
  let NextT := BiggerOrSameHostTypeHelper (NextBiggerReal Real KIND) in
  {| Helper_Type :=
       conditional_t (HostTypeExists h [T]) (HostType h T)
         (Helper_Type NextT);
     Helper_FortranType :=
       conditional_t (HostTypeExists h [T]) T (Helper_FortranType NextT) |};
BiggerOrSameHostTypeHelper (Type_ Complex KIND) :=
  let T := Type_ Complex KIND in
  let NextT := BiggerOrSameHostTypeHelper (NextBiggerReal Complex KIND) in
  {| Helper_Type :=
       conditional_t (HostTypeExists h [T]) (HostType h T)
         (Helper_Type NextT);
     Helper_FortranType :=
       conditional_t (HostTypeExists h [T]) T (Helper_FortranType NextT) |};
BiggerOrSameHostTypeHelper T :=
  {| Helper_Type :=
       conditional_t (HostTypeExists h [T]) (HostType h T) UnsupportedType;
     Helper_FortranType := T |}.
Next Obligation. chain_rank_decreases. Qed.
Next Obligation. chain_rank_decreases. Qed.

Definition BiggerOrSameHostType (FTN_T : CppType) : CppType :=
  Helper_Type (BiggerOrSameHostTypeHelper FTN_T).

Definition BiggerOrSameFortranTypeSupportedOnHost (FTN_T : CppType)
  : CppType :=
  Helper_FortranType (BiggerOrSameHostTypeHelper FTN_T).

Definition BiggerOrSameHostTypeExists (Ts : list CppType) : bool :=
  forallb (fun T => negb (is_same_v (BiggerOrSameHostType T) UnsupportedType))
    Ts.

End Bigger.

(** ** Scalar conversion between F18 scalars and host scalars *)

(** A scalar is handled through its object representation, a list of
    bytes.  [*reinterpret_cast<const U *>(&x)] reads [sizeof(U)] bytes at
    the address of [x]: the bytes of [x] and, where [U] is larger than [x],
    the bytes [mem 0], [mem 1], ... that follow [x] in memory.  Such a read
    past the object is undefined in C++: [mem] stands for memory that is no
    part of the argument, and a result that varies with [mem] is a result
    the argument does not determine.  The bytes are followed exactly for
    objects without padding (the integer types, [std::uint8_t]); a
    [long double] or a character string returned by value need not keep
    the bytes of its object, and the properties below that speak of bytes
    are to be read at objects without padding. *)
Definition reinterpret_cast (n : nat) (x : list byte) (mem : nat -> byte)
  : list byte :=
  firstn n (x ++ map mem (seq 0 (n - length x))).

(** Outcome of instantiating a function template: the value it computes,
    or no program at all when its [static_assert] fails. *)
Inductive build (A : Type) : Type :=
| Built (a : A)
| static_assert_failed.
Arguments Built {A} a.
Arguments static_assert_failed {A}.

Definition bind {A B} (m : build A) (k : A -> build B) : build B :=
  match m with
  | Built a => k a
  | static_assert_failed => static_assert_failed
  end.

Definition category_is_Complex (T : CppType) : bool :=
  match T with Type_ Complex _ => true | _ => false end.

Section Casts.
Variable h : HostABI.
(** Modelled from the spec: type.h, which declares [Scalar<T>], is not
    among the sources.  [sizeof_Scalar cat KIND] is the size of the scalar
    of a non-complex kind; a complex scalar is "decomposed into real and
    imaginary source scalars", so it occupies its two parts, real first. *)
Variable sizeof_Scalar : TypeCategory -> Z -> nat.

Fixpoint sizeof (T : CppType) : nat :=
  match T with
  | int8_t | uint8_t => 1
  | int16_t => 2
  | int32_t => 4
  | int64_t => 8
  | int128_t => 16
  | float => sizeof_float h
  | double => sizeof_double h
  | long_double => sizeof_long_double h
  | std_complex U => 2 * sizeof U
  | Scalar (Type_ Complex KIND) => 2 * sizeof_Scalar Real KIND
  | Scalar (Type_ cat KIND) => sizeof_Scalar cat KIND
  | UnsupportedType | UnknownType => 1
  | _ => 0
  end.

(** [x.REAL()], [x.AIMAG()] and [Scalar<FTN_T>{re, im}] on a complex
    scalar of kind [KIND]; [std::real], [std::imag] and
    [std::complex<T>{re, im}] on its host complex.  The parts have the
    type [FTN_T::Part], which is [Type<Real, KIND>]. *)
Definition REAL (KIND : Z) (x : list byte) : list byte :=
  firstn (sizeof (Scalar (Type_ Real KIND))) x.
Definition AIMAG (KIND : Z) (x : list byte) : list byte :=
  skipn (sizeof (Scalar (Type_ Real KIND))) x.
Definition std_real (KIND : Z) (x : list byte) : list byte :=
  firstn (sizeof (HostType h (Type_ Real KIND))) x.
Definition std_imag (KIND : Z) (x : list byte) : list byte :=
  skipn (sizeof (HostType h (Type_ Real KIND))) x.
Definition make_complex (re im : list byte) : list byte := re ++ im.

Definition cast_depth (T : CppType) : nat :=
  if category_is_Complex T then 1 else 0.

Equations CastHostToFortran (FTN_T : CppType) (x : list byte)
  (mem : nat -> byte) : build (list byte) by wf (cast_depth FTN_T) lt :=
CastHostToFortran (Type_ Complex KIND) x mem :=
  let FTN_T := Type_ Complex KIND in
  if HostTypeExists h [FTN_T] then
    if negb (Nat.eqb (sizeof (Scalar FTN_T)) (sizeof (HostType h FTN_T)))
    then
      bind (CastHostToFortran (Type_ Real KIND) (std_real KIND x) mem)
        (fun re =>
      bind (CastHostToFortran (Type_ Real KIND) (std_imag KIND x) mem)
        (fun im => Built (make_complex re im)))
    else Built (reinterpret_cast (sizeof (Scalar FTN_T)) x mem)
  else static_assert_failed;
CastHostToFortran FTN_T x mem :=
  if HostTypeExists h [FTN_T] then
    Built (reinterpret_cast (sizeof (Scalar FTN_T)) x mem)
  else static_assert_failed.

Equations CastFortranToHost (FTN_T : CppType) (x : list byte)
  (mem : nat -> byte) : build (list byte) by wf (cast_depth FTN_T) lt :=
CastFortranToHost (Type_ Complex KIND) x mem :=
  let FTN_T := Type_ Complex KIND in
  if HostTypeExists h [FTN_T] then
    if negb (Nat.eqb (sizeof (Scalar FTN_T)) (sizeof (HostType h FTN_T)))
    then
      bind (CastFortranToHost (Type_ Real KIND) (REAL KIND x) mem)
        (fun re =>
      bind (CastFortranToHost (Type_ Real KIND) (AIMAG KIND x) mem)
        (fun im => Built (make_complex re im)))
    else Built (reinterpret_cast (sizeof (HostType h FTN_T)) x mem)
  else static_assert_failed;
CastFortranToHost FTN_T x mem :=
  if HostTypeExists h [FTN_T] then
    Built (reinterpret_cast (sizeof (HostType h FTN_T)) x mem)
  else static_assert_failed.

End Casts.

(** ** The promotion rule as the specification words it *)

(** The per-category successor relation over widths and the walk along it:
    the kind itself first, then its successors in order. *)
Definition PromotionChain_successor (w : Z) : option Z :=
  (if w =? 2 then Some 4
   else if w =? 3 then Some 4
   else if w =? 4 then Some 8
   else if w =? 8 then Some 10
   else if w =? 10 then Some 16
   else None)%Z.

Fixpoint PromotionChain (fuel : nat) (w : Z) : list Z :=
  w :: match fuel, PromotionChain_successor w with
       | S fuel', Some w' => PromotionChain fuel' w'
       | _, _ => []
       end.

(** [None] stands for the result Unsupported. *)
Definition WidestUsable (h : HostABI) (cat : TypeCategory) (w : Z)
  : option (CppType * CppType) :=
  match find (fun k => HostTypeExists h [Type_ cat k]) (PromotionChain 4 w)
  with
  | Some k => Some (HostType h (Type_ cat k), Type_ cat k)
  | None => None
  end.

Definition Helper_of_WidestUsable (r : option (CppType * CppType)) : Helper :=
  match r with
  | Some (host, ftn) => {| Helper_Type := host; Helper_FortranType := ftn |}
  | None => {| Helper_Type := UnsupportedType; Helper_FortranType := void |}
  end.

(** ** Host floating-point environment guard *)

Module Fenv.

Inductive RoundingMode : Set := ToNearest | TowardZero | Upward | Downward.

(** The five status flags, as bits of the exception mask of <cfenv>. *)
Inductive Flag : Set := overflow | underflow | invalid | inexact | divide_by_zero.

Definition FE (f : Flag) : N :=
  match f with
  | invalid => 1
  | divide_by_zero => 4
  | overflow => 8
  | underflow => 16
  | inexact => 32
  end%N.

Definition FE_ALL_EXCEPT : N := 61.

(** The bit position of a flag in the exception mask. *)
Definition bit (f : Flag) : N :=
  match f with
  | invalid => 0 | divide_by_zero => 2 | overflow => 3
  | underflow => 4 | inexact => 5
  end%N.


(** [std::fenv_t]: rounding mode, trap mask and status flags. *)
Record fenv_t : Set := {
  rounding : RoundingMode;
  traps : N;
  status : N
}.

(** The part of [FoldingContext] the guard talks to: the configuration it
    asks for and the sink of reported flag sets, latest first. *)
Record FoldingContext : Set := {
  requested_rounding : RoundingMode;
  requested_traps : N;
  reports : list N
}.

(** The private members of the class. *)
Record HostFloatingPointEnvironment : Set := {
  originalFenv_ : fenv_t;
  currentFenv_ : fenv_t
}.

(** Modelled from the spec: the member functions are defined in host.cc,
    which is not among the sources.  SetUp "captures current
    FPEnvironmentSnapshot, clears pending status flags, installs the
    trap/rounding configuration requested by the folding context". *)
Definition SetUpHostFloatingPointEnvironment
    (self : HostFloatingPointEnvironment) (context : FoldingContext)
    (env : fenv_t) : HostFloatingPointEnvironment * fenv_t :=
  let installed :=
    {| rounding := requested_rounding context;
       traps := requested_traps context;
       status := 0 |} in
  ({| originalFenv_ := env; currentFenv_ := installed |}, installed).

(** Modelled from the spec: the member function is defined in host.cc.
    CheckAndRestore "reads accumulated status flags (overflow, underflow,
    invalid, inexact, divide-by-zero) since SetUp, reports the set of
    raised flags to the folding context, restores the snapshot captured at
    SetUp". *)
Definition CheckAndRestoreFloatingPointEnvironment
    (self : HostFloatingPointEnvironment) (context : FoldingContext)
    (env : fenv_t) : FoldingContext * fenv_t :=
  let exceptions := N.land (status env) FE_ALL_EXCEPT in
  ({| requested_rounding := requested_rounding context;
      requested_traps := requested_traps context;
      reports := exceptions :: reports context |},
   originalFenv_ self).

(** What host arithmetic does to the environment between the two calls:
    it raises status flags, which stay set, and it may change the rounding
    mode. *)
Inductive host_op : Set :=
| raise (f : Flag)
| fesetround (r : RoundingMode).

Definition step (env : fenv_t) (op : host_op) : fenv_t :=
  match op with
  | raise f =>
      {| rounding := rounding env; traps := traps env;
         status := N.lor (status env) (FE f) |}
  | fesetround r =>
      {| rounding := r; traps := traps env; status := status env |}
  end.

Definition run (ops : list host_op) (env : fenv_t) : fenv_t :=
  fold_left step ops env.

Definition Flag_eqb (a b : Flag) : bool :=
  match a, b with
  | overflow, overflow | underflow, underflow | invalid, invalid
  | inexact, inexact | divide_by_zero, divide_by_zero => true
  | _, _ => false
  end.

Definition raises (f : Flag) (op : host_op) : bool :=
  match op with raise g => Flag_eqb f g | fesetround _ => false end.

(** Whether the latest report to the context holds flag [f]. *)
Definition reported (context : FoldingContext) (f : Flag) : bool :=
  match reports context with
  | [] => false
  | flags :: _ => negb (N.eqb (N.land flags (FE f)) 0)
  end.

(** One guarded fold: SetUp, the host operations, CheckAndRestore. *)
Definition guarded (self : HostFloatingPointEnvironment)
    (context : FoldingContext) (ops : list host_op) (env : fenv_t)
  : FoldingContext * fenv_t :=
  let '(self', env1) := SetUpHostFloatingPointEnvironment self context env in
  CheckAndRestoreFloatingPointEnvironment self' context (run ops env1).

End Fenv.

(** ** Sample hosts and tables *)

(** x86-64 with the System V ABI: x87 extended [long double] padded to 16
    bytes. *)
Definition x86_64 : HostABI :=
  {| sizeof_float := 4; float_is_iec559 := true;
     sizeof_double := 8; double_is_iec559 := true;
     sizeof_long_double := 16; long_double_digits := 64;
     long_double_max_exponent := 16384; has_int128 := true |}.

(** A synthetic host without usable [double] and without x87, whose
    [long double] is IEEE-754 binary128. *)
Definition quad_only : HostABI :=
  {| sizeof_float := 4; float_is_iec559 := true;
     sizeof_double := 8; double_is_iec559 := false;
     sizeof_long_double := 16; long_double_digits := 113;
     long_double_max_exponent := 16384; has_int128 := true |}.

(** A sample tuple of intrinsic types, category by category, to stand for
    [AllIntrinsicTypes]. *)
Definition intrinsic_types : list CppType :=
  map (Type_ Integer) [1; 2; 4; 8; 16]%Z
  ++ map (Type_ Real) [2; 3; 4; 8; 10; 16]%Z
  ++ map (Type_ Complex) [2; 3; 4; 8; 10; 16]%Z
  ++ map (Type_ Character) [1; 2; 4]%Z
  ++ map (Type_ Logical) [1; 2; 4; 8]%Z.

(** A scalar layout in which a kind of width [KIND] occupies [KIND] bytes,
    the 80-bit Real(10) being held in 12. *)
Definition kind_bytes (cat : TypeCategory) (KIND : Z) : nat :=
  match cat, KIND with
  | Real, 10%Z => 12
  | _, _ => Z.to_nat KIND
  end.

(** The category of a Fortran type, and the category whose
    specialisations produce a given host type. *)
Definition category_of (T : CppType) : option TypeCategory :=
  match T with Type_ cat _ => Some cat | _ => None end.

Definition host_class (HOST_T : CppType) : option TypeCategory :=
  match HOST_T with
  | int8_t | int16_t | int32_t | int64_t | int128_t => Some Integer
  | float | double | long_double => Some Real
  | std_complex _ => Some Complex
  | uint8_t => Some Logical
  | Scalar _ => Some Character
  | _ => None
  end.

Definition is_built {A} (m : build A) : bool :=
  match m with Built _ => true | static_assert_failed => false end.

(** * Properties *)

(** ** The model at work on the sample hosts *)

Example HostType_x86_64 :
  map (HostType x86_64) intrinsic_types =
    [int8_t; int16_t; int32_t; int64_t; int128_t;
     UnsupportedType; UnsupportedType; float; double; long_double;
     UnsupportedType;
     UnsupportedType; UnsupportedType; std_complex float;
     std_complex double; std_complex long_double; UnsupportedType;
     Scalar (Type_ Character 1); Scalar (Type_ Character 2);
     Scalar (Type_ Character 4);
     uint8_t; uint8_t; uint8_t; uint8_t].
Proof. reflexivity. Qed.

Example FortranType_x86_64 :
  map (FortranType x86_64 intrinsic_types)
      [int32_t; float; long_double; std_complex double; uint8_t] =
    [Type_ Integer 4; Type_ Real 4; Type_ Real 10; Type_ Complex 8;
     Type_ Logical 1].
Proof. reflexivity. Qed.

Example BiggerOrSame_x86_64 :
  map (BiggerOrSameFortranTypeSupportedOnHost x86_64)
      [Type_ Real 2; Type_ Real 3; Type_ Complex 2; Type_ Real 10;
       Type_ Real 16; Type_ Integer 3] =
    [Type_ Real 4; Type_ Real 4; Type_ Complex 4; Type_ Real 10;
     void; Type_ Integer 3].
Proof. reflexivity. Qed.

Example BiggerOrSame_quad_only :
  map (BiggerOrSameHostType quad_only)
      [Type_ Real 4; Type_ Real 8; Type_ Real 10; Type_ Complex 8] =
    [float; long_double; long_double; std_complex long_double].
Proof. reflexivity. Qed.

Example CastFortranToHost_Logical2 :
  CastFortranToHost x86_64 kind_bytes (Type_ Logical 2) [x01; x00]
    (fun _ => xff)
  = Built [x01].
Proof. reflexivity. Qed.

Example CastFortranToHost_unsupported :
  CastFortranToHost x86_64 kind_bytes (Type_ Real 16) (repeat x3f 16)
    (fun _ => xff)
  = static_assert_failed.
Proof. reflexivity. Qed.

Example guarded_overflow :
  let context := {| Fenv.requested_rounding := Fenv.ToNearest;
                    Fenv.requested_traps := 0; Fenv.reports := [] |} in
  let env := {| Fenv.rounding := Fenv.Upward; Fenv.traps := 0;
                Fenv.status := Fenv.FE Fenv.invalid |} in
  let self := {| Fenv.originalFenv_ := env; Fenv.currentFenv_ := env |} in
  let r := Fenv.guarded self context
             [Fenv.raise Fenv.overflow; Fenv.raise Fenv.inexact] env in
  snd r = env /\ Fenv.reports (fst r) = [40%N].
Proof. split; reflexivity. Qed.

(** ** The registry *)

Lemma is_same_v_spec a b : is_same_v a b = true <-> a = b.
Proof.
  unfold is_same_v. destruct (CppType_eq_dec a b); split; congruence.
Qed.

Lemma is_same_v_refl a : is_same_v a a = true.
Proof. apply is_same_v_spec. reflexivity. Qed.

Lemma HostTypeExists_one h T :
  HostTypeExists h [T] = negb (is_same_v (HostType h T) UnsupportedType).
Proof. unfold HostTypeExists. simpl. apply andb_true_r. Qed.

Lemma exists_conditional (b : bool) T :
  T <> UnsupportedType ->
  negb (is_same_v (conditional_t b T UnsupportedType) UnsupportedType) = b.
Proof.
  intros HT. destruct b; simpl.
  - destruct (is_same_v T UnsupportedType) eqn:E; [|reflexivity].
    apply is_same_v_spec in E. contradiction.
  - reflexivity.
Qed.

(** Which Real kinds have a host type, kind by kind. *)
Lemma HostTypeExists_Real h KIND :
  HostTypeExists h [Type_ Real KIND] =
  ((KIND =? 4)%Z && (Nat.eqb (sizeof_float h) 4 && float_is_iec559 h)
   || (KIND =? 8)%Z && (Nat.eqb (sizeof_double h) 8 && double_is_iec559 h)
   || (KIND =? 10)%Z && (Nat.leb 10 (sizeof_long_double h)
                         && (long_double_digits h =? 64)%Z
                         && (long_double_max_exponent h =? 16384)%Z)
   || (KIND =? 16)%Z && (Nat.eqb (sizeof_long_double h) 16
                         && (long_double_digits h =? 113)%Z
                         && (long_double_max_exponent h =? 16384)%Z)).
Proof.
  rewrite HostTypeExists_one. unfold HostType, HostTypeHelper, HostTypeHelper_Real.
  destruct (Z.eqb_spec KIND 4) as [->|?];
    [simpl; rewrite exists_conditional by discriminate;
     rewrite !orb_false_r; reflexivity|].
  destruct (Z.eqb_spec KIND 8) as [->|?];
    [simpl; rewrite exists_conditional by discriminate;
     rewrite !orb_false_r; reflexivity|].
  destruct (Z.eqb_spec KIND 10) as [->|?];
    [simpl; rewrite exists_conditional by discriminate;
     rewrite !orb_false_r; reflexivity|].
  destruct (Z.eqb_spec KIND 16) as [->|?];
    [simpl; rewrite exists_conditional by discriminate; reflexivity|].
  reflexivity.
Qed.

Lemma HostTypeExists_Complex h KIND :
  HostTypeExists h [Type_ Complex KIND] = HostTypeExists h [Type_ Real KIND].
Proof.
  rewrite !HostTypeExists_one. unfold HostType, HostTypeHelper.
  apply exists_conditional. discriminate.
Qed.

(** C3: for every width [w], Complex(w) has a host type exactly when
    Real(w) has one, and then that host type is [std::complex] of the host
    type of Real(w); otherwise it is [UnsupportedType]. *)
Theorem Complex_host_type_from_Real (h : HostABI) (w : Z) :
  HostTypeExists h [Type_ Complex w] = HostTypeExists h [Type_ Real w] /\
  HostType h (Type_ Complex w) =
    if HostTypeExists h [Type_ Real w]
    then std_complex (HostType h (Type_ Real w))
    else UnsupportedType.
Proof.
  split.
  - rewrite !HostTypeExists_one. unfold HostType, HostTypeHelper.
    apply exists_conditional. discriminate.
  - rewrite HostTypeExists_one. unfold HostType, HostTypeHelper.
    destruct (is_same_v (HostTypeHelper_Real h w) UnsupportedType);
      reflexivity.
Qed.

(** C6: a Real kind has a host type exactly when the native type of that
    width matches the required profile: Real(4) iff [float] has 4 bytes and
    is IEC 559, Real(8) iff [double] has 8 bytes and is IEC 559, Real(10)
    iff [long double] has at least 10 bytes, 64 digits and max exponent
    16384, Real(16) iff [long double] has exactly 16 bytes, 113 digits and
    max exponent 16384; Real(2), Real(3) and every other kind have none.
    The host types are [float], [double], [long double], [long double]. *)
Theorem Real_host_type_profile (h : HostABI) :
  HostTypeExists h [Type_ Real 4]
    = (Nat.eqb (sizeof_float h) 4 && float_is_iec559 h) /\
  HostTypeExists h [Type_ Real 8]
    = (Nat.eqb (sizeof_double h) 8 && double_is_iec559 h) /\
  HostTypeExists h [Type_ Real 10]
    = (Nat.leb 10 (sizeof_long_double h)
       && (long_double_digits h =? 64)%Z
       && (long_double_max_exponent h =? 16384)%Z) /\
  HostTypeExists h [Type_ Real 16]
    = (Nat.eqb (sizeof_long_double h) 16
       && (long_double_digits h =? 113)%Z
       && (long_double_max_exponent h =? 16384)%Z) /\
  HostTypeExists h [Type_ Real 2] = false /\
  HostTypeExists h [Type_ Real 3] = false /\
  (forall KIND,
     HostTypeExists h [Type_ Real KIND] && negb (KIND =? 4)%Z
       && negb (KIND =? 8)%Z && negb (KIND =? 10)%Z && negb (KIND =? 16)%Z
     = false) /\
  (forall KIND,
     HostType h (Type_ Real KIND) =
       if HostTypeExists h [Type_ Real KIND]
       then (if (KIND =? 4)%Z then float
             else if (KIND =? 8)%Z then double else long_double)
       else UnsupportedType).
Proof.
  repeat split; try (rewrite HostTypeExists_Real; simpl;
                     rewrite ?orb_false_r; reflexivity).
  - intros KIND. rewrite HostTypeExists_Real.
    destruct (KIND =? 4)%Z, (KIND =? 8)%Z, (KIND =? 10)%Z, (KIND =? 16)%Z;
      simpl; rewrite ?andb_false_r; reflexivity.
  - intros KIND. rewrite HostTypeExists_one.
    unfold HostType, HostTypeHelper, HostTypeHelper_Real.
    destruct (KIND =? 4)%Z; [destruct (_ && _); reflexivity|].
    destruct (KIND =? 8)%Z; [destruct (_ && _); reflexivity|].
    destruct (KIND =? 10)%Z; [destruct (_ && _); reflexivity|].
    destruct (KIND =? 16)%Z; [destruct (_ && _); reflexivity|].
    reflexivity.
Qed.

(** C7: a Logical kind of width [w] has a host type exactly when [w <= 8];
    the host type is then [std::uint8_t], and [UnsupportedType] for wider
    kinds. *)
Theorem Logical_host_type (h : HostABI) (w : Z) :
  HostTypeExists h [Type_ Logical w] = (w <=? 8)%Z /\
  HostType h (Type_ Logical w) =
    if (w <=? 8)%Z then uint8_t else UnsupportedType.
Proof.
  split.
  - rewrite HostTypeExists_one. unfold HostType, HostTypeHelper.
    apply exists_conditional. discriminate.
  - reflexivity.
Qed.

(** C10: on any host at most one of Real(10) and Real(16) has a host type:
    both are [long double], with 64 digits for the one and 113 for the
    other. *)
Theorem Real10_Real16_exclusive (h : HostABI) :
  HostTypeExists h [Type_ Real 10] && HostTypeExists h [Type_ Real 16] = false
  /\ HostTypeExists h [Type_ Real 10; Type_ Real 16] = false.
Proof.
  assert (E : HostTypeExists h [Type_ Real 10]
              && HostTypeExists h [Type_ Real 16] = false).
  { rewrite !HostTypeExists_Real. simpl. rewrite !orb_false_r.
    destruct (Z.eqb_spec (long_double_digits h) 64) as [e|?].
    - rewrite e. simpl. rewrite !andb_false_r. reflexivity.
    - rewrite !andb_false_r. reflexivity. }
  split; [exact E|].
  rewrite <- E, !HostTypeExists_one. simpl. rewrite andb_true_r. reflexivity.
Qed.

(** ** The promotion resolver *)

Arguments HostTypeExists : simpl never.
Arguments HostType : simpl never.

Lemma Helper_eta (r : Helper) :
  {| Helper_Type := Helper_Type r; Helper_FortranType := Helper_FortranType r |}
  = r.
Proof. destruct r; reflexivity. Qed.

(** One step of the template recursion of the Real and Complex
    specialisations. *)
Lemma BiggerOrSame_step h cat KIND :
  cat = Real \/ cat = Complex ->
  BiggerOrSameHostTypeHelper h (Type_ cat KIND) =
    if HostTypeExists h [Type_ cat KIND]
    then {| Helper_Type := HostType h (Type_ cat KIND);
            Helper_FortranType := Type_ cat KIND |}
    else BiggerOrSameHostTypeHelper h (NextBiggerReal cat KIND).
Proof.
  intros [-> | ->]; simp BiggerOrSameHostTypeHelper; cbv zeta;
    destruct (HostTypeExists h _); simpl; auto using Helper_eta.
Qed.

Lemma BiggerOrSame_generic h cat KIND :
  cat = Integer \/ cat = Logical \/ cat = Character ->
  BiggerOrSameHostTypeHelper h (Type_ cat KIND) =
    {| Helper_Type :=
         conditional_t (HostTypeExists h [Type_ cat KIND])
           (HostType h (Type_ cat KIND)) UnsupportedType;
       Helper_FortranType := Type_ cat KIND |}.
Proof.
  intros [-> | [-> | ->]]; simp BiggerOrSameHostTypeHelper; reflexivity.
Qed.

Lemma BiggerOrSame_void h :
  BiggerOrSameHostTypeHelper h void =
    {| Helper_Type := UnsupportedType; Helper_FortranType := void |}.
Proof. simp BiggerOrSameHostTypeHelper. reflexivity. Qed.

Lemma NextBiggerReal_successor cat KIND :
  NextBiggerReal cat KIND =
    match PromotionChain_successor KIND with
    | Some w => Type_ cat w
    | None => void
    end.
Proof.
  unfold NextBiggerReal, PromotionChain_successor.
  repeat match goal with
         | |- context [Z.eqb KIND ?c] => destruct (Z.eqb KIND c); [reflexivity|]
         end.
  reflexivity.
Qed.

Lemma successor_rank KIND w :
  PromotionChain_successor KIND = Some w ->
  forall cat, chain_rank (Type_ cat w) < chain_rank (Type_ cat KIND).
Proof.
  intros E cat. pose proof (NextBiggerReal_successor cat KIND) as N.
  rewrite E in N. rewrite <- N.
  unfold NextBiggerReal, chain_rank;
  repeat match goal with
         | |- context [Z.eqb ?k ?c] =>
             is_var k; destruct (Z.eqb_spec k c); [subst k; cbn; lia|]
         end;
  cbn; lia.
Qed.

(** The template recursion finds the first kind of the chain that has a
    host type, whatever fuel the walk is given beyond the chain's length. *)
Lemma BiggerOrSame_walk h cat :
  cat = Real \/ cat = Complex ->
  forall fuel KIND,
    chain_rank (Type_ cat KIND) <= S fuel ->
    BiggerOrSameHostTypeHelper h (Type_ cat KIND) =
      Helper_of_WidestUsable
        match find (fun k => HostTypeExists h [Type_ cat k])
                (PromotionChain fuel KIND) with
        | Some k => Some (HostType h (Type_ cat k), Type_ cat k)
        | None => None
        end.
Proof.
  intros Hcat. induction fuel as [|fuel IH]; intros KIND Hrank;
    rewrite (BiggerOrSame_step h cat KIND Hcat), NextBiggerReal_successor;
    simpl PromotionChain; simpl find;
    destruct (HostTypeExists h [Type_ cat KIND]); try reflexivity.
  - destruct (PromotionChain_successor KIND) as [w|] eqn:E.
    + pose proof (successor_rank _ _ E cat) as L.
      assert (Z0 : chain_rank (Type_ cat w) = 0) by lia.
      exfalso. revert Z0. unfold chain_rank.
      repeat match goal with
             | |- context [Z.eqb w ?c] => destruct (Z.eqb w c); [discriminate|]
             end.
      discriminate.
    + apply BiggerOrSame_void.
  - destruct (PromotionChain_successor KIND) as [w|] eqn:E.
    + apply IH. pose proof (successor_rank _ _ E cat). lia.
    + apply BiggerOrSame_void.
Qed.

Lemma chain_rank_le_5 T : chain_rank T <= 5.
Proof.
  destruct T; simpl; try lia.
  repeat match goal with
         | |- context [Z.eqb KIND ?c] => destruct (Z.eqb KIND c); [lia|]
         end.
  lia.
Qed.

(** C4: for a Real or Complex kind, a kind that has a host type resolves
    to its own host type and itself; one that has none resolves as its
    successor in the chain 2->4, 3->4, 4->8, 8->10, 10->16 does, so the
    result is the first kind of the chain with a host type, and
    [UnsupportedType] when the chain is exhausted; where widths 8 and 10
    have no host type and width 16 has one, width 8 resolves to width
    16. *)
Theorem BiggerOrSame_Real_Complex (h : HostABI) (cat : TypeCategory)
    (KIND : Z) :
  cat = Real \/ cat = Complex ->
  (HostTypeExists h [Type_ cat KIND] = true ->
   BiggerOrSameHostType h (Type_ cat KIND) = HostType h (Type_ cat KIND) /\
   BiggerOrSameFortranTypeSupportedOnHost h (Type_ cat KIND)
     = Type_ cat KIND) /\
  (HostTypeExists h [Type_ cat KIND] = false ->
   BiggerOrSameHostTypeHelper h (Type_ cat KIND)
     = BiggerOrSameHostTypeHelper h (NextBiggerReal cat KIND)) /\
  (NextBiggerReal cat 2 = Type_ cat 4 /\ NextBiggerReal cat 3 = Type_ cat 4 /\
   NextBiggerReal cat 4 = Type_ cat 8 /\ NextBiggerReal cat 8 = Type_ cat 10 /\
   NextBiggerReal cat 10 = Type_ cat 16 /\ NextBiggerReal cat 16 = void) /\
  BiggerOrSameHostTypeHelper h (Type_ cat KIND)
    = Helper_of_WidestUsable (WidestUsable h cat KIND) /\
  (HostTypeExists h [Type_ cat 8] = false ->
   HostTypeExists h [Type_ cat 10] = false ->
   HostTypeExists h [Type_ cat 16] = true ->
   BiggerOrSameHostTypeHelper h (Type_ cat 8) =
     {| Helper_Type := HostType h (Type_ cat 16);
        Helper_FortranType := Type_ cat 16 |}).
Proof.
  intros Hcat. repeat split.
  - unfold BiggerOrSameHostType.
    rewrite (BiggerOrSame_step h cat KIND Hcat), H. reflexivity.
  - unfold BiggerOrSameFortranTypeSupportedOnHost.
    rewrite (BiggerOrSame_step h cat KIND Hcat), H. reflexivity.
  - intros E. rewrite (BiggerOrSame_step h cat KIND Hcat), E. reflexivity.
  - apply (BiggerOrSame_walk h cat Hcat). apply chain_rank_le_5.
  - intros E8 E10 E16.
    rewrite (BiggerOrSame_step h cat 8 Hcat), E8.
    change (NextBiggerReal cat 8) with (Type_ cat 10).
    rewrite (BiggerOrSame_step h cat 10 Hcat), E10.
    change (NextBiggerReal cat 10) with (Type_ cat 16).
    rewrite (BiggerOrSame_step h cat 16 Hcat), E16. reflexivity.
Qed.

Lemma BiggerOrSame_Real_Complex_witness :
  (Real = Real \/ Real = Complex) /\
  HostTypeExists quad_only [Type_ Real 8] = false /\
  HostTypeExists quad_only [Type_ Real 10] = false /\
  HostTypeExists quad_only [Type_ Real 16] = true /\
  BiggerOrSameHostTypeHelper quad_only (Type_ Real 8) =
    {| Helper_Type := long_double; Helper_FortranType := Type_ Real 16 |}.
Proof.
  assert (Hcat : Real = Real \/ Real = Complex) by (left; reflexivity).
  split; [exact Hcat|]. do 3 (split; [reflexivity|]).
  destruct (BiggerOrSame_Real_Complex quad_only Real 8 Hcat) as (_ & _ & _ & _ & P).
  apply P; reflexivity.
Defined.

(** C5: an Integer, Logical or Character kind is never promoted: its
    bigger-or-same host type is its own host type when it has one and
    [UnsupportedType] otherwise, and the Fortran type reported is always
    the kind itself. *)
Theorem BiggerOrSame_no_promotion (h : HostABI) (cat : TypeCategory)
    (KIND : Z) :
  cat = Integer \/ cat = Logical \/ cat = Character ->
  BiggerOrSameHostType h (Type_ cat KIND) =
    (if HostTypeExists h [Type_ cat KIND]
     then HostType h (Type_ cat KIND) else UnsupportedType) /\
  BiggerOrSameFortranTypeSupportedOnHost h (Type_ cat KIND) = Type_ cat KIND.
Proof.
  intros Hcat.
  unfold BiggerOrSameHostType, BiggerOrSameFortranTypeSupportedOnHost.
  rewrite (BiggerOrSame_generic h cat KIND Hcat). split; reflexivity.
Qed.

Lemma BiggerOrSame_no_promotion_witness :
  (Logical = Integer \/ Logical = Logical \/ Logical = Character) /\
  BiggerOrSameHostType x86_64 (Type_ Logical 16) = UnsupportedType /\
  BiggerOrSameFortranTypeSupportedOnHost x86_64 (Type_ Logical 16)
    = Type_ Logical 16.
Proof.
  assert (Hcat : Logical = Integer \/ Logical = Logical \/ Logical = Character)
    by (right; left; reflexivity).
  split; [exact Hcat|].
  exact (BiggerOrSame_no_promotion x86_64 Logical 16 Hcat).
Defined.

(** ** The inverse lookup *)

(** Searching the mapped tuple is searching the tuple itself for the first
    type whose host type is the one looked up. *)
Lemma TypeIndex_find (F : CppType -> CppType) X all :
  match find (fun U => is_same_v X (F U)) all with
  | Some U => (0 <= TypeIndex X (MapTemplate F all))%Z /\
              tuple_element_t (TypeIndex X (MapTemplate F all)) all = U
  | None => TypeIndex X (MapTemplate F all) = (-1)%Z
  end.
Proof.
  unfold MapTemplate, tuple_element_t.
  induction all as [|V all IH]; simpl; [reflexivity|].
  destruct (is_same_v X (F V)); [split; [lia|reflexivity]|].
  destruct (find _ all) as [U|].
  - destruct IH as [Hge Hnth].
    destruct (Z.ltb_spec (TypeIndex X (map F all)) 0); [lia|].
    split; [lia|].
    rewrite Z2Nat.inj_add by lia. rewrite Nat.add_comm. simpl. exact Hnth.
  - rewrite IH. reflexivity.
Qed.

Lemma FortranType_find h all HOST_T :
  FortranType h all HOST_T =
    match find (fun U => is_same_v HOST_T (HostType h U)) all with
    | Some U => U
    | None => UnknownType
    end.
Proof.
  unfold FortranType, FortranTypeHelper, FortranTypeHelper_index,
    IndexInTupleHelper, HostTypeMapping.
  pose proof (TypeIndex_find (HostType h) HOST_T all) as P.
  destruct (find _ all) as [U|].
  - destruct P as [Hge Hnth]. cbv zeta. rewrite Hnth.
    destruct (Z.leb_spec 0 (TypeIndex HOST_T (MapTemplate (HostType h) all)));
      [reflexivity|lia].
  - cbv zeta. rewrite P. reflexivity.
Qed.

(** A type with a host type is a [Type<cat, KIND>], and its host type is
    one of those its category produces. *)
Lemma HostType_class h T :
  HostType h T <> UnsupportedType ->
  exists cat KIND, T = Type_ cat KIND /\ host_class (HostType h T) = Some cat.
Proof.
  unfold HostType. destruct T as [| | | | | | | | | | | | |cat KIND|];
    simpl; try congruence.
  intros HT. exists cat, KIND. split; [reflexivity|].
  destruct cat; simpl in *.
  - unfold HostTypeHelper_Integer in *.
    repeat match goal with
           | |- context [if ?b then _ else _] => destruct b
           end; simpl in *; congruence.
  - unfold HostTypeHelper_Real, conditional_t in *.
    repeat match goal with
           | |- context [if ?b then _ else _] => destruct b
           end; simpl in *; congruence.
  - unfold conditional_t in *.
    destruct (negb _); simpl in *; congruence.
  - reflexivity.
  - unfold conditional_t in *.
    destruct (KIND <=? 8)%Z; simpl in *; congruence.
Qed.

Lemma HostTypeHelper_Integer_inj h K K' :
  HostTypeHelper_Integer h K <> UnsupportedType ->
  HostTypeHelper_Integer h K = HostTypeHelper_Integer h K' -> K = K'.
Proof.
  unfold HostTypeHelper_Integer.
  repeat match goal with
         | |- context [Z.eqb K ?c] => destruct (Z.eqb_spec K c)
         end;
  repeat match goal with
         | |- context [Z.eqb K' ?c] => destruct (Z.eqb_spec K' c)
         end;
  destruct (has_int128 h); intros; congruence.
Qed.

Lemma HostTypeHelper_Real_inj h K K' :
  HostTypeHelper_Real h K <> UnsupportedType ->
  HostTypeHelper_Real h K = HostTypeHelper_Real h K' -> K = K'.
Proof.
  unfold HostTypeHelper_Real, conditional_t.
  destruct (long_double_digits h =? 64)%Z eqn:D;
    [apply Z.eqb_eq in D; rewrite D|];
    simpl; rewrite ?andb_false_r; simpl;
  repeat match goal with
         | |- context [Z.eqb K ?c] => destruct (Z.eqb_spec K c)
         end;
  repeat match goal with
         | |- context [Z.eqb K' ?c] => destruct (Z.eqb_spec K' c)
         end;
  repeat match goal with
         | |- context [if ?b then _ else _] => destruct b
         end; intros; congruence.
Qed.

(** Two types with the same host type have the same category, and outside
    Logical they are the same type. *)
Lemma HostType_inj h T T' :
  HostType h T <> UnsupportedType ->
  HostType h T' = HostType h T ->
  category_of T' = category_of T /\
  (category_of T <> Some Logical -> T' = T).
Proof.
  intros HT E.
  destruct (HostType_class h T HT) as (c & K & -> & C).
  assert (HT' : HostType h T' <> UnsupportedType) by congruence.
  destruct (HostType_class h T' HT') as (c' & K' & -> & C').
  rewrite E, C in C'. injection C' as <-.
  split; [reflexivity|]. simpl. intros NL.
  unfold HostType in *.
  destruct c; simpl in *.
  - f_equal. symmetry. eapply HostTypeHelper_Integer_inj; eauto.
  - f_equal. symmetry. eapply HostTypeHelper_Real_inj; eauto.
  - f_equal. symmetry. unfold conditional_t in *.
    destruct (is_same_v (HostTypeHelper_Real h K) UnsupportedType) eqn:S;
      simpl in *; [congruence|].
    destruct (is_same_v (HostTypeHelper_Real h K') UnsupportedType) eqn:S';
      simpl in *; [congruence|].
    injection E as E.
    eapply HostTypeHelper_Real_inj; eauto.
    intros U. apply is_same_v_spec in U. congruence.
  - congruence.
  - congruence.
Qed.

Lemma HostTypeExists_true h T :
  HostTypeExists h [T] = true <-> HostType h T <> UnsupportedType.
Proof.
  rewrite HostTypeExists_one.
  destruct (is_same_v (HostType h T) UnsupportedType) eqn:E; simpl.
  - apply is_same_v_spec in E. split; [discriminate|contradiction].
  - split; [|reflexivity]. intros _ U. apply is_same_v_spec in U. congruence.
Qed.

(** C2, as amended: for a type [T] of the table with a host type, the
    inverse lookup of [HostType<T>] is the first type of the table whose
    host type is [HostType<T>]; it has the category of [T], also where two
    categories share a byte width, and it is [T] itself unless [T] is
    Logical (all Logical kinds up to 8 share [std::uint8_t]). *)
Theorem FortranType_of_HostType (h : HostABI) (all : list CppType)
    (T : CppType) :
  In T all ->
  HostTypeExists h [T] = true ->
  find (fun U => is_same_v (HostType h T) (HostType h U)) all
    = Some (FortranType h all (HostType h T)) /\
  In (FortranType h all (HostType h T)) all /\
  HostType h (FortranType h all (HostType h T)) = HostType h T /\
  category_of (FortranType h all (HostType h T)) = category_of T /\
  (category_of T <> Some Logical -> FortranType h all (HostType h T) = T).
Proof.
  intros HIn HEx. apply HostTypeExists_true in HEx.
  rewrite FortranType_find.
  destruct (find _ all) as [U|] eqn:F.
  - destruct (find_some _ _ F) as [HU HS]. apply is_same_v_spec in HS.
    split; [reflexivity|]. split; [exact HU|]. split; [congruence|].
    apply (HostType_inj h T U); congruence.
  - exfalso. pose proof (find_none _ _ F T HIn) as N. simpl in N.
    rewrite is_same_v_refl in N. discriminate.
Qed.

Lemma FortranType_of_HostType_witness :
  In (Type_ Real 4) intrinsic_types /\
  HostTypeExists x86_64 [Type_ Real 4] = true /\
  sizeof x86_64 kind_bytes (HostType x86_64 (Type_ Integer 4))
    = sizeof x86_64 kind_bytes (HostType x86_64 (Type_ Real 4)) /\
  FortranType x86_64 intrinsic_types (HostType x86_64 (Type_ Real 4))
    = Type_ Real 4.
Proof.
  assert (HIn : In (Type_ Real 4) intrinsic_types)
    by (vm_compute; tauto).
  assert (HEx : HostTypeExists x86_64 [Type_ Real 4] = true) by reflexivity.
  split; [exact HIn|]. split; [exact HEx|]. split; [reflexivity|].
  destruct (FortranType_of_HostType x86_64 intrinsic_types (Type_ Real 4) HIn HEx)
    as (_ & _ & _ & _ & P).
  apply P. discriminate.
Defined.

(** C2 as stated fails: Logical(4) has the host type [std::uint8_t], and
    the inverse lookup of [std::uint8_t] is Logical(1). *)
Lemma FortranType_Logical_counterexample :
  In (Type_ Logical 4) intrinsic_types /\
  HostTypeExists x86_64 [Type_ Logical 4] = true /\
  FortranType x86_64 intrinsic_types (HostType x86_64 (Type_ Logical 4))
    = Type_ Logical 1 /\
  FortranType x86_64 intrinsic_types (HostType x86_64 (Type_ Logical 4))
    <> Type_ Logical 4.
Proof.
  split; [vm_compute; tauto|]. split; [reflexivity|].
  split; [reflexivity|]. vm_compute. discriminate.
Qed.

(** ** The scalar casts *)

(** Reading a larger object over [x] keeps the bytes of [x] in front. *)
Lemma reinterpret_cast_widen n x mem :
  length x <= n ->
  reinterpret_cast n x mem = x ++ map mem (seq 0 (n - length x)).
Proof.
  intros L. unfold reinterpret_cast. apply firstn_all2.
  rewrite length_app, length_map, length_seq. lia.
Qed.

Section CastFacts.
Variable h : HostABI.
Variable sizeof_Scalar : TypeCategory -> Z -> nat.

Lemma CastFortranToHost_plain T x mem :
  category_is_Complex T = false ->
  CastFortranToHost h sizeof_Scalar T x mem =
    if HostTypeExists h [T]
    then Built (reinterpret_cast (sizeof h sizeof_Scalar (HostType h T)) x mem)
    else static_assert_failed.
Proof.
  destruct T as [| | | | | | | | | | | | |cat KIND|];
    try destruct cat; simpl; intros C; try discriminate;
    simp CastFortranToHost; reflexivity.
Qed.

Lemma CastHostToFortran_plain T x mem :
  category_is_Complex T = false ->
  CastHostToFortran h sizeof_Scalar T x mem =
    if HostTypeExists h [T]
    then Built (reinterpret_cast (sizeof h sizeof_Scalar (Scalar T)) x mem)
    else static_assert_failed.
Proof.
  destruct T as [| | | | | | | | | | | | |cat KIND|];
    try destruct cat; simpl; intros C; try discriminate;
    simp CastHostToFortran; reflexivity.
Qed.

(** The two branches of [if constexpr] for a Complex type. *)
Lemma CastFortranToHost_Complex KIND x mem :
  let FTN_T := Type_ Complex KIND in
  CastFortranToHost h sizeof_Scalar FTN_T x mem =
    if HostTypeExists h [FTN_T] then
      if Nat.eqb (sizeof h sizeof_Scalar (Scalar FTN_T))
                 (sizeof h sizeof_Scalar (HostType h FTN_T))
      then Built (reinterpret_cast
                    (sizeof h sizeof_Scalar (HostType h FTN_T)) x mem)
      else
        bind (CastFortranToHost h sizeof_Scalar (Type_ Real KIND)
                (REAL h sizeof_Scalar KIND x) mem) (fun re =>
        bind (CastFortranToHost h sizeof_Scalar (Type_ Real KIND)
                (AIMAG h sizeof_Scalar KIND x) mem) (fun im =>
        Built (make_complex re im)))
    else static_assert_failed.
Proof.
  cbv zeta. simp CastFortranToHost. cbv zeta.
  destruct (HostTypeExists h _); [|reflexivity].
  destruct (Nat.eqb _ _); reflexivity.
Qed.

Lemma CastHostToFortran_Complex KIND x mem :
  let FTN_T := Type_ Complex KIND in
  CastHostToFortran h sizeof_Scalar FTN_T x mem =
    if HostTypeExists h [FTN_T] then
      if Nat.eqb (sizeof h sizeof_Scalar (Scalar FTN_T))
                 (sizeof h sizeof_Scalar (HostType h FTN_T))
      then Built (reinterpret_cast
                    (sizeof h sizeof_Scalar (Scalar FTN_T)) x mem)
      else
        bind (CastHostToFortran h sizeof_Scalar (Type_ Real KIND)
                (std_real h sizeof_Scalar KIND x) mem) (fun re =>
        bind (CastHostToFortran h sizeof_Scalar (Type_ Real KIND)
                (std_imag h sizeof_Scalar KIND x) mem) (fun im =>
        Built (make_complex re im)))
    else static_assert_failed.
Proof.
  cbv zeta. simp CastHostToFortran. cbv zeta.
  destruct (HostTypeExists h _); [|reflexivity].
  destruct (Nat.eqb _ _); reflexivity.
Qed.

Lemma HostType_Complex_exists KIND :
  HostTypeExists h [Type_ Complex KIND] = true ->
  HostTypeExists h [Type_ Real KIND] = true /\
  HostType h (Type_ Complex KIND) = std_complex (HostType h (Type_ Real KIND)).
Proof.
  intros E. rewrite HostTypeExists_Complex in E. split; [exact E|].
  rewrite HostTypeExists_one in E. unfold HostType, HostTypeHelper in *.
  destruct (is_same_v (HostTypeHelper_Real h KIND) UnsupportedType);
    [discriminate|reflexivity].
Qed.

End CastFacts.

Lemma category_is_Complex_inv T :
  category_is_Complex T = true -> exists KIND, T = Type_ Complex KIND.
Proof.
  destruct T as [| | | | | | | | | | | | |cat KIND|]; try discriminate.
  destruct cat; try discriminate. intros _. exists KIND. reflexivity.
Qed.

Lemma firstn_app_exact {A} n (a b : list A) :
  length a = n -> firstn n (a ++ b) = a.
Proof.
  intros <-. rewrite firstn_app, firstn_all, Nat.sub_diag, firstn_O.
  apply app_nil_r.
Qed.

(** C8: either cast is a program exactly when the kind has a host type:
    instantiated at a kind without one it fails its [static_assert] and
    yields no value, and at a kind with one it always yields a value. *)
Theorem casts_exist_iff_HostTypeExists (h : HostABI)
    (sizeof_Scalar : TypeCategory -> Z -> nat) (FTN_T : CppType)
    (x : list byte) (mem : nat -> byte) :
  is_built (CastFortranToHost h sizeof_Scalar FTN_T x mem)
    = HostTypeExists h [FTN_T] /\
  is_built (CastHostToFortran h sizeof_Scalar FTN_T x mem)
    = HostTypeExists h [FTN_T].
Proof.
  destruct (category_is_Complex FTN_T) eqn:C.
  - destruct (category_is_Complex_inv FTN_T C) as [KIND ->].
    pose proof (CastFortranToHost_Complex h sizeof_Scalar KIND x mem) as F.
    pose proof (CastHostToFortran_Complex h sizeof_Scalar KIND x mem) as G.
    cbv zeta in F, G. rewrite F, G. clear F G.
    destruct (HostTypeExists h [Type_ Complex KIND]) eqn:E;
      [|split; reflexivity].
    destruct (HostType_Complex_exists h KIND E) as [ER _].
    destruct (Nat.eqb _ _); [split; reflexivity|].
    rewrite !CastFortranToHost_plain, !CastHostToFortran_plain, ER
      by reflexivity.
    split; reflexivity.
  - rewrite CastFortranToHost_plain, CastHostToFortran_plain by exact C.
    destruct (HostTypeExists h [FTN_T]); split; reflexivity.
Qed.

(** C1: the round trip is not the identity for every type with a host
    type.  Logical(4) has the one-byte host type [std::uint8_t] on every
    host.  [CastFortranToHost] takes the canonical true scalar
    01 00 00 00 to the byte 01; [CastHostToFortran] then reads the 4 bytes
    of a scalar at the address of that one byte, so bytes 1 to 3 of what
    it returns are the bytes that follow the host value in memory, and the
    scalar comes back only where those three happen to be zero. *)
Theorem cast_round_trip_Logical4_reads_past_host_value (h : HostABI)
    (mem mem' : nat -> byte) :
  HostTypeExists h [Type_ Logical 4] = true /\
  sizeof h kind_bytes (Scalar (Type_ Logical 4)) = 4 /\
  sizeof h kind_bytes (HostType h (Type_ Logical 4)) = 1 /\
  CastFortranToHost h kind_bytes (Type_ Logical 4) [x01; x00; x00; x00] mem
    = Built [x01] /\
  CastHostToFortran h kind_bytes (Type_ Logical 4) [x01] mem'
    = Built [x01; mem' 0; mem' 1; mem' 2] /\
  (bind (CastFortranToHost h kind_bytes (Type_ Logical 4)
           [x01; x00; x00; x00] mem)
        (fun y => CastHostToFortran h kind_bytes (Type_ Logical 4) y mem')
     = Built [x01; x00; x00; x00]
   <-> mem' 0 = x00 /\ mem' 1 = x00 /\ mem' 2 = x00).
Proof.
  assert (E : HostTypeExists h [Type_ Logical 4] = true) by reflexivity.
  assert (F : CastFortranToHost h kind_bytes (Type_ Logical 4)
                [x01; x00; x00; x00] mem = Built [x01]).
  { rewrite CastFortranToHost_plain, E by reflexivity. reflexivity. }
  assert (G : CastHostToFortran h kind_bytes (Type_ Logical 4) [x01] mem'
              = Built [x01; mem' 0; mem' 1; mem' 2]).
  { rewrite CastHostToFortran_plain, E by reflexivity. reflexivity. }
  split; [exact E|]. split; [reflexivity|]. split; [reflexivity|].
  split; [exact F|]. split; [exact G|].
  rewrite F. unfold bind. rewrite G. split.
  - intros Q. injection Q as Q0 Q1 Q2. auto.
  - intros (Q0 & Q1 & Q2). rewrite Q0, Q1, Q2. reflexivity.
Qed.

(** ** The floating-point environment guard *)

Module FenvFacts.
Import Fenv.

Lemma FE_bit f : FE f = (2 ^ bit f)%N.
Proof. destruct f; reflexivity. Qed.

Lemma land_pow2_eqb x i :
  N.eqb (N.land x (2 ^ i)) 0 = negb (N.testbit x i).
Proof.
  destruct (N.testbit x i) eqn:T; simpl.
  - apply N.eqb_neq. intros Z.
    assert (B : N.testbit (N.land x (2 ^ i)) i = true)
      by (rewrite N.land_spec, T, N.pow2_bits_true; reflexivity).
    rewrite Z, N.bits_0 in B. discriminate.
  - apply N.eqb_eq. apply N.bits_inj. intros j.
    rewrite N.land_spec, N.bits_0.
    destruct (N.eq_dec i j) as [<-|Ne].
    + rewrite T. reflexivity.
    + rewrite N.pow2_bits_false by exact Ne. apply andb_false_r.
Qed.

Lemma Flag_eqb_bit f g : Flag_eqb f g = N.eqb (bit f) (bit g).
Proof. destruct f, g; reflexivity. Qed.

Lemma FE_ALL_EXCEPT_bit f : N.testbit FE_ALL_EXCEPT (bit f) = true.
Proof. destruct f; reflexivity. Qed.

(** The flags found set after a run are those set before and those the
    run raised. *)
Lemma status_run ops : forall env f,
  N.testbit (status (run ops env)) (bit f) =
    N.testbit (status env) (bit f) || existsb (raises f) ops.
Proof.
  unfold run. induction ops as [|op ops IH]; intros env f; simpl.
  - rewrite orb_false_r. reflexivity.
  - rewrite IH. destruct op as [g|r]; simpl.
    + rewrite N.lor_spec, FE_bit, Flag_eqb_bit, <- orb_assoc. f_equal. f_equal.
      destruct (N.eqb_spec (bit f) (bit g)) as [->|Ne].
      * apply N.pow2_bits_true.
      * apply N.pow2_bits_false. congruence.
    + reflexivity.
Qed.

End FenvFacts.

(** C9: a fold guarded by SetUp and CheckAndRestore leaves the host
    floating-point environment exactly as it was before SetUp, whatever
    flags the host operations in between raised and whatever rounding
    mode they set, and the flags reported to the folding context are
    exactly those raised in between, each of overflow, underflow, invalid,
    inexact and divide-by-zero. *)
Theorem guard_restores_and_reports
    (self : Fenv.HostFloatingPointEnvironment)
    (context : Fenv.FoldingContext) (ops : list Fenv.host_op)
    (env : Fenv.fenv_t) :
  snd (Fenv.guarded self context ops env) = env /\
  forall f : Fenv.Flag,
    Fenv.reported (fst (Fenv.guarded self context ops env)) f
      = existsb (Fenv.raises f) ops.
Proof.
  unfold Fenv.guarded, Fenv.SetUpHostFloatingPointEnvironment,
    Fenv.CheckAndRestoreFloatingPointEnvironment. simpl.
  split; [reflexivity|]. intros f. unfold Fenv.reported. simpl.
  rewrite FenvFacts.FE_bit, FenvFacts.land_pow2_eqb, negb_involutive.
  rewrite N.land_spec, FenvFacts.FE_ALL_EXCEPT_bit, andb_true_r.
  rewrite FenvFacts.status_run. reflexivity.
Qed.

(** * Further properties of the header *)

(** ** The forward mapping *)

Lemma HostTypeExists_false h T :
  HostTypeExists h [T] = false <-> HostType h T = UnsupportedType.
Proof.
  rewrite HostTypeExists_one.
  destruct (is_same_v (HostType h T) UnsupportedType) eqn:E; simpl.
  - apply is_same_v_spec in E. split; auto.
  - split; [discriminate|]. intros U. rewrite U, is_same_v_refl in E.
    discriminate.
Qed.

(** X1: an Integer kind has a host type exactly for kinds 1, 2, 4 and 8,
    and for kind 16 where the compiler has [__int128_t]; a host type it has
    occupies exactly [KIND] bytes, and any other kind maps to
    [UnsupportedType]. *)
Theorem Integer_host_type (h : HostABI)
    (sizeof_Scalar : TypeCategory -> Z -> nat) (KIND : Z) :
  HostTypeExists h [Type_ Integer KIND] =
    ((KIND =? 1)%Z || (KIND =? 2)%Z || (KIND =? 4)%Z || (KIND =? 8)%Z
     || ((KIND =? 16)%Z && has_int128 h)) /\
  if HostTypeExists h [Type_ Integer KIND]
  then Z.of_nat (sizeof h sizeof_Scalar (HostType h (Type_ Integer KIND)))
       = KIND
  else HostType h (Type_ Integer KIND) = UnsupportedType.
Proof.
  assert (E : HostTypeExists h [Type_ Integer KIND] =
    ((KIND =? 1)%Z || (KIND =? 2)%Z || (KIND =? 4)%Z || (KIND =? 8)%Z
     || ((KIND =? 16)%Z && has_int128 h))).
  { rewrite HostTypeExists_one.
    unfold HostType, HostTypeHelper, HostTypeHelper_Integer.
    destruct (Z.eqb_spec KIND 1) as [->|?]; [reflexivity|].
    destruct (Z.eqb_spec KIND 2) as [->|?]; [reflexivity|].
    destruct (Z.eqb_spec KIND 4) as [->|?]; [reflexivity|].
    destruct (Z.eqb_spec KIND 8) as [->|?]; [reflexivity|].
    destruct (Z.eqb_spec KIND 16) as [->|?]; [|reflexivity].
    destruct (has_int128 h); reflexivity. }
  split; [exact E|].
  destruct (HostTypeExists h [Type_ Integer KIND]) eqn:X.
  - clear E. rewrite HostTypeExists_one in X. revert X.
    unfold HostType, HostTypeHelper, HostTypeHelper_Integer.
    destruct (Z.eqb_spec KIND 1) as [->|?]; [reflexivity|].
    destruct (Z.eqb_spec KIND 2) as [->|?]; [reflexivity|].
    destruct (Z.eqb_spec KIND 4) as [->|?]; [reflexivity|].
    destruct (Z.eqb_spec KIND 8) as [->|?]; [reflexivity|].
    destruct (Z.eqb_spec KIND 16) as [->|?]; [|discriminate].
    destruct (has_int128 h); [reflexivity|discriminate].
  - apply HostTypeExists_false. exact X.
Qed.

(** X2: a Real kind that has a host type fits in it: the host type has at
    least [KIND] bytes, exactly [KIND] unless the kind is 10 (the padded
    x87 format), and the host type of the Complex kind is twice as
    large. *)
Theorem Real_Complex_host_size (h : HostABI)
    (sizeof_Scalar : TypeCategory -> Z -> nat) (KIND : Z) :
  HostTypeExists h [Type_ Real KIND] = true ->
  (KIND <= Z.of_nat (sizeof h sizeof_Scalar (HostType h (Type_ Real KIND))))%Z
  /\ (KIND <> 10%Z ->
      Z.of_nat (sizeof h sizeof_Scalar (HostType h (Type_ Real KIND))) = KIND)
  /\ sizeof h sizeof_Scalar (HostType h (Type_ Complex KIND))
     = 2 * sizeof h sizeof_Scalar (HostType h (Type_ Real KIND)).
Proof.
  intros E.
  assert (C : HostType h (Type_ Complex KIND)
              = std_complex (HostType h (Type_ Real KIND))).
  { apply HostType_Complex_exists. rewrite HostTypeExists_Complex. exact E. }
  rewrite C. clear C.
  rewrite HostTypeExists_one in E. revert E.
  unfold HostType, HostTypeHelper, HostTypeHelper_Real, conditional_t.
  destruct (Z.eqb_spec KIND 4) as [->|?].
  { destruct (Nat.eqb_spec (sizeof_float h) 4) as [e|?];
      [|discriminate]. destruct (float_is_iec559 h); [|discriminate].
    simpl. rewrite e. intros _. repeat split; lia. }
  destruct (Z.eqb_spec KIND 8) as [->|?].
  { destruct (Nat.eqb_spec (sizeof_double h) 8) as [e|?];
      [|discriminate]. destruct (double_is_iec559 h); [|discriminate].
    simpl. rewrite e. intros _. repeat split; lia. }
  destruct (Z.eqb_spec KIND 10) as [->|?].
  { destruct (Nat.leb_spec 10 (sizeof_long_double h)) as [l|?];
      [|discriminate].
    destruct (_ =? 64)%Z; [|discriminate].
    destruct (_ =? 16384)%Z; [|discriminate].
    simpl. intros _. repeat split; lia. }
  destruct (Z.eqb_spec KIND 16) as [->|?]; [|discriminate].
  destruct (Nat.eqb_spec (sizeof_long_double h) 16) as [e|?];
    [|discriminate].
  destruct (_ =? 113)%Z; [|discriminate].
  destruct (_ =? 16384)%Z; [|discriminate].
  simpl. rewrite e. intros _. repeat split; lia.
Qed.

Lemma Real_Complex_host_size_witness :
  HostTypeExists x86_64 [Type_ Real 10] = true /\
  (10 <= Z.of_nat (sizeof x86_64 kind_bytes
                     (HostType x86_64 (Type_ Real 10))))%Z /\
  sizeof x86_64 kind_bytes (HostType x86_64 (Type_ Complex 10)) = 32.
Proof.
  assert (E : HostTypeExists x86_64 [Type_ Real 10] = true) by reflexivity.
  split; [exact E|].
  destruct (Real_Complex_host_size x86_64 kind_bytes 10 E) as (L & _ & C).
  split; [exact L|]. rewrite C. reflexivity.
Defined.

(** X3: only instantiations of [Type<category, KIND>] have host types, and
    the mapping keeps types apart: two types with the same host type, one
    of which exists, have the same category, and the same kind too unless
    they are Logical. *)
Theorem HostType_injective (h : HostABI) (T T' : CppType) :
  HostTypeExists h [T] = true ->
  HostType h T' = HostType h T ->
  exists cat KIND KIND',
    T = Type_ cat KIND /\ T' = Type_ cat KIND' /\
    (cat <> Logical -> KIND' = KIND).
Proof.
  intros E S. apply HostTypeExists_true in E.
  destruct (HostType_inj h T T' E S) as [C I].
  destruct (HostType_class h T E) as (cat & KIND & -> & _).
  assert (E' : HostType h T' <> UnsupportedType) by congruence.
  destruct (HostType_class h T' E') as (cat' & KIND' & -> & _).
  simpl in C. injection C as ->.
  exists cat, KIND, KIND'. repeat split.
  intros NL. assert (Q : Type_ cat KIND' = Type_ cat KIND).
  { apply I. simpl. congruence. }
  congruence.
Qed.

Lemma HostType_injective_witness :
  HostTypeExists x86_64 [Type_ Logical 2] = true /\
  HostType x86_64 (Type_ Logical 8) = HostType x86_64 (Type_ Logical 2) /\
  exists cat KIND KIND',
    Type_ Logical 2 = Type_ cat KIND /\ Type_ Logical 8 = Type_ cat KIND' /\
    (cat <> Logical -> KIND' = KIND).
Proof.
  assert (E : HostTypeExists x86_64 [Type_ Logical 2] = true) by reflexivity.
  assert (S : HostType x86_64 (Type_ Logical 8)
              = HostType x86_64 (Type_ Logical 2)) by reflexivity.
  split; [exact E|]. split; [exact S|].
  exact (HostType_injective x86_64 (Type_ Logical 2) (Type_ Logical 8) E S).
Defined.

(** ** The inverse mapping *)

Lemma FortranTypeExists_one h all HOST_T :
  FortranTypeExists h all [HOST_T]
  = negb (is_same_v (FortranType h all HOST_T) UnknownType).
Proof. unfold FortranTypeExists. simpl. apply andb_true_r. Qed.

(** X4: a host type that has a Fortran type maps back to itself: the
    Fortran type found is a type of the table and its host type is the
    host type looked up. *)
Theorem HostType_of_FortranType (h : HostABI) (all : list CppType)
    (HOST_T : CppType) :
  FortranTypeExists h all [HOST_T] = true ->
  In (FortranType h all HOST_T) all /\
  HostType h (FortranType h all HOST_T) = HOST_T.
Proof.
  rewrite FortranTypeExists_one, FortranType_find.
  destruct (find _ all) as [U|] eqn:F.
  - intros _. destruct (find_some _ _ F) as [HU HS].
    apply is_same_v_spec in HS. auto.
  - rewrite is_same_v_refl. discriminate.
Qed.

Lemma HostType_of_FortranType_witness :
  FortranTypeExists x86_64 intrinsic_types [long_double] = true /\
  FortranType x86_64 intrinsic_types long_double = Type_ Real 10 /\
  HostType x86_64 (FortranType x86_64 intrinsic_types long_double)
    = long_double.
Proof.
  assert (E : FortranTypeExists x86_64 intrinsic_types [long_double] = true)
    by reflexivity.
  split; [exact E|]. split; [reflexivity|].
  exact (proj2 (HostType_of_FortranType x86_64 intrinsic_types long_double E)).
Defined.

(** X5: the host type of a type of the table that has one always has a
    Fortran type. *)
Theorem FortranTypeExists_of_HostType (h : HostABI) (all : list CppType)
    (T : CppType) :
  In T all ->
  HostTypeExists h [T] = true ->
  FortranTypeExists h all [HostType h T] = true.
Proof.
  intros HIn HEx. apply HostTypeExists_true in HEx.
  rewrite FortranTypeExists_one, FortranType_find.
  destruct (find _ all) as [U|] eqn:F.
  - destruct (find_some _ _ F) as [_ HS]. apply is_same_v_spec in HS.
    assert (HU : HostType h U <> UnsupportedType) by congruence.
    destruct (HostType_class h U HU) as (cat & KIND & -> & _). reflexivity.
  - exfalso. pose proof (find_none _ _ F T HIn) as N. simpl in N.
    rewrite is_same_v_refl in N. discriminate.
Qed.

Lemma FortranTypeExists_of_HostType_witness :
  In (Type_ Complex 8) intrinsic_types /\
  HostTypeExists x86_64 [Type_ Complex 8] = true /\
  FortranTypeExists x86_64 intrinsic_types [std_complex double] = true.
Proof.
  assert (HIn : In (Type_ Complex 8) intrinsic_types) by (vm_compute; tauto).
  assert (HEx : HostTypeExists x86_64 [Type_ Complex 8] = true)
    by reflexivity.
  split; [exact HIn|]. split; [exact HEx|].
  exact (FortranTypeExists_of_HostType x86_64 intrinsic_types
           (Type_ Complex 8) HIn HEx).
Defined.

(** ** More on the promotion resolver *)

(** Every type is a Real or Complex type, resolved along the chain, or is
    resolved by the primary template. *)
Lemma BiggerOrSame_shape T :
  (exists cat KIND, T = Type_ cat KIND /\ (cat = Real \/ cat = Complex)) \/
  (forall h,
     BiggerOrSameHostTypeHelper h T =
       {| Helper_Type :=
            conditional_t (HostTypeExists h [T]) (HostType h T)
              UnsupportedType;
          Helper_FortranType := T |}).
Proof.
  destruct T as [| | | | | | | | | | | | |cat KIND|];
    try (right; intros h; simp BiggerOrSameHostTypeHelper; reflexivity).
  destruct cat;
    try (right; intros h; simp BiggerOrSameHostTypeHelper; reflexivity);
    left; do 2 eexists; (split; [reflexivity | auto]).
Qed.

Lemma BiggerOrSame_chain h cat KIND :
  cat = Real \/ cat = Complex ->
  BiggerOrSameHostTypeHelper h (Type_ cat KIND) =
    Helper_of_WidestUsable
      match find (fun k => HostTypeExists h [Type_ cat k])
              (PromotionChain 4 KIND) with
      | Some k => Some (HostType h (Type_ cat k), Type_ cat k)
      | None => None
      end.
Proof.
  intros Hcat. apply (BiggerOrSame_walk h cat Hcat). apply chain_rank_le_5.
Qed.

Lemma BiggerOrSameHostTypeExists_one h T :
  BiggerOrSameHostTypeExists h [T]
  = negb (is_same_v (BiggerOrSameHostType h T) UnsupportedType).
Proof. unfold BiggerOrSameHostTypeExists. simpl. apply andb_true_r. Qed.

Lemma successor_grows w w' :
  PromotionChain_successor w = Some w' ->
  (w < w')%Z /\ (w' = 4 \/ w' = 8 \/ w' = 10 \/ w' = 16)%Z.
Proof.
  unfold PromotionChain_successor.
  repeat match goal with
         | |- context [Z.eqb w ?c] =>
             destruct (Z.eqb_spec w c);
             [intros E; injection E as <-; lia|]
         end.
  discriminate.
Qed.

Lemma PromotionChain_members fuel : forall w k,
  In k (PromotionChain fuel w) ->
  (w <= k)%Z /\ (k = w \/ k = 4 \/ k = 8 \/ k = 10 \/ k = 16)%Z.
Proof.
  induction fuel as [|fuel IH]; intros w k; simpl.
  - intros [<-|[]]. lia.
  - intros [<-|HIn]; [lia|].
    destruct (PromotionChain_successor w) as [w'|] eqn:E; [|destruct HIn].
    destruct (successor_grows w w' E) as [L S].
    destruct (IH w' k HIn) as [L' S']. lia.
Qed.

Lemma find_pointwise {A} (f g : A -> bool) l :
  (forall a, f a = g a) -> find f l = find g l.
Proof.
  intros E. induction l as [|a l IH]; simpl; [reflexivity|].
  rewrite E, IH. reflexivity.
Qed.

(** X6: the two member types of the resolver always agree: the host type
    it reports is the host type of the Fortran type it reports, for every
    type, so it finds a host type exactly when the Fortran type it reports
    has one. *)
Theorem BiggerOrSame_members_agree (h : HostABI) (T : CppType) :
  BiggerOrSameHostType h T
    = HostType h (BiggerOrSameFortranTypeSupportedOnHost h T) /\
  BiggerOrSameHostTypeExists h [T]
    = HostTypeExists h [BiggerOrSameFortranTypeSupportedOnHost h T].
Proof.
  assert (A : BiggerOrSameHostType h T
              = HostType h (BiggerOrSameFortranTypeSupportedOnHost h T)).
  { unfold BiggerOrSameHostType, BiggerOrSameFortranTypeSupportedOnHost.
    destruct (BiggerOrSame_shape T) as [(cat & KIND & -> & Hcat)|G].
    - rewrite (BiggerOrSame_chain h cat KIND Hcat).
      destruct (find _ _); reflexivity.
    - rewrite G. simpl.
      destruct (HostTypeExists h [T]) eqn:E; [reflexivity|].
      symmetry. apply HostTypeExists_false. exact E. }
  split; [exact A|].
  rewrite BiggerOrSameHostTypeExists_one, HostTypeExists_one, A. reflexivity.
Qed.

(** X7: resolving is idempotent: the Fortran type the resolver reports
    resolves to itself, with the same host type. *)
Theorem BiggerOrSame_idempotent (h : HostABI) (T : CppType) :
  BiggerOrSameHostTypeHelper h (BiggerOrSameFortranTypeSupportedOnHost h T)
    = BiggerOrSameHostTypeHelper h T.
Proof.
  unfold BiggerOrSameFortranTypeSupportedOnHost.
  destruct (BiggerOrSame_shape T) as [(cat & KIND & -> & Hcat)|G].
  - rewrite (BiggerOrSame_chain h cat KIND Hcat).
    destruct (find _ _) as [k|] eqn:F; simpl.
    + destruct (find_some _ _ F) as [_ E].
      rewrite (BiggerOrSame_step h cat k Hcat), E. reflexivity.
    + apply BiggerOrSame_void.
  - rewrite (G h). simpl. apply G.
Qed.

(** X8: a Real or Complex kind that resolves does so to a kind of its own
    category that has a host type and is at least as wide: the kind itself
    or one of 4, 8, 10, 16 above it. *)
Theorem BiggerOrSame_is_bigger_or_same (h : HostABI) (cat : TypeCategory)
    (KIND : Z) :
  cat = Real \/ cat = Complex ->
  BiggerOrSameHostTypeExists h [Type_ cat KIND] = true ->
  exists KIND',
    BiggerOrSameFortranTypeSupportedOnHost h (Type_ cat KIND)
      = Type_ cat KIND' /\
    BiggerOrSameHostType h (Type_ cat KIND) = HostType h (Type_ cat KIND') /\
    HostTypeExists h [Type_ cat KIND'] = true /\
    (KIND <= KIND')%Z /\
    (KIND' = KIND \/ KIND' = 4 \/ KIND' = 8 \/ KIND' = 10 \/ KIND' = 16)%Z.
Proof.
  intros Hcat. rewrite BiggerOrSameHostTypeExists_one.
  unfold BiggerOrSameHostType, BiggerOrSameFortranTypeSupportedOnHost.
  rewrite (BiggerOrSame_chain h cat KIND Hcat).
  destruct (find _ _) as [k|] eqn:F; simpl.
  - intros _. destruct (find_some _ _ F) as [HIn E].
    destruct (PromotionChain_members _ _ _ HIn) as [L S].
    exists k. auto.
  - discriminate.
Qed.

Lemma BiggerOrSame_is_bigger_or_same_witness :
  (Complex = Real \/ Complex = Complex) /\
  BiggerOrSameHostTypeExists quad_only [Type_ Complex 8] = true /\
  exists KIND',
    BiggerOrSameFortranTypeSupportedOnHost quad_only (Type_ Complex 8)
      = Type_ Complex KIND' /\
    BiggerOrSameHostType quad_only (Type_ Complex 8)
      = HostType quad_only (Type_ Complex KIND') /\
    HostTypeExists quad_only [Type_ Complex KIND'] = true /\
    (8 <= KIND')%Z /\
    (KIND' = 8 \/ KIND' = 4 \/ KIND' = 8 \/ KIND' = 10 \/ KIND' = 16)%Z.
Proof.
  assert (Hcat : Complex = Real \/ Complex = Complex)
    by (right; reflexivity).
  assert (E : BiggerOrSameHostTypeExists quad_only [Type_ Complex 8] = true)
    by reflexivity.
  split; [exact Hcat|]. split; [exact E|].
  exact (BiggerOrSame_is_bigger_or_same quad_only Complex 8 Hcat E).
Defined.

(** X9: a Complex kind is promoted exactly as the Real kind of the same
    width.  Where the Real kind resolves, to kind [KIND'] say, the Complex
    kind resolves to Complex([KIND']) with the host type [std::complex] of
    the host type of Real([KIND']); where the Real chain is exhausted, so
    is the Complex chain, and both report [UnsupportedType]. *)
Theorem BiggerOrSame_Complex_follows_Real (h : HostABI) (KIND : Z) :
  BiggerOrSameHostTypeExists h [Type_ Complex KIND]
    = BiggerOrSameHostTypeExists h [Type_ Real KIND] /\
  if BiggerOrSameHostTypeExists h [Type_ Real KIND]
  then exists KIND',
    BiggerOrSameHostTypeHelper h (Type_ Real KIND) =
      {| Helper_Type := HostType h (Type_ Real KIND');
         Helper_FortranType := Type_ Real KIND' |} /\
    BiggerOrSameHostTypeHelper h (Type_ Complex KIND) =
      {| Helper_Type := std_complex (HostType h (Type_ Real KIND'));
         Helper_FortranType := Type_ Complex KIND' |}
  else
    BiggerOrSameHostTypeHelper h (Type_ Real KIND) =
      {| Helper_Type := UnsupportedType; Helper_FortranType := void |} /\
    BiggerOrSameHostTypeHelper h (Type_ Complex KIND) =
      {| Helper_Type := UnsupportedType; Helper_FortranType := void |}.
Proof.
  rewrite !BiggerOrSameHostTypeExists_one. unfold BiggerOrSameHostType.
  rewrite (BiggerOrSame_chain h Complex KIND (or_intror eq_refl)).
  rewrite (BiggerOrSame_chain h Real KIND (or_introl eq_refl)).
  rewrite (find_pointwise
             (fun k => HostTypeExists h [Type_ Complex k])
             (fun k => HostTypeExists h [Type_ Real k])
             _ (HostTypeExists_Complex h)).
  destruct (find _ _) as [k|] eqn:F; simpl.
  - destruct (find_some _ _ F) as [_ E].
    assert (EC : HostTypeExists h [Type_ Complex k] = true)
      by (rewrite HostTypeExists_Complex; exact E).
    destruct (HostType_Complex_exists h k EC) as [_ ->].
    rewrite HostTypeExists_one in E. rewrite E.
    split; [reflexivity|]. exists k. split; reflexivity.
  - split; [reflexivity|]. split; reflexivity.
Qed.

(** X10: kinds 2 and 3 of Real and Complex never have a host type and
    resolve exactly as kind 4 does. *)
Theorem BiggerOrSame_half_precision (h : HostABI) (cat : TypeCategory) :
  cat = Real \/ cat = Complex ->
  HostTypeExists h [Type_ cat 2] = false /\
  HostTypeExists h [Type_ cat 3] = false /\
  BiggerOrSameHostTypeHelper h (Type_ cat 2)
    = BiggerOrSameHostTypeHelper h (Type_ cat 4) /\
  BiggerOrSameHostTypeHelper h (Type_ cat 3)
    = BiggerOrSameHostTypeHelper h (Type_ cat 4).
Proof.
  intros Hcat.
  assert (E2 : HostTypeExists h [Type_ cat 2] = false)
    by (destruct Hcat as [-> | ->];
        rewrite ?HostTypeExists_Complex, HostTypeExists_Real; reflexivity).
  assert (E3 : HostTypeExists h [Type_ cat 3] = false)
    by (destruct Hcat as [-> | ->];
        rewrite ?HostTypeExists_Complex, HostTypeExists_Real; reflexivity).
  repeat split; try assumption.
  - rewrite (BiggerOrSame_step h cat 2 Hcat), E2. reflexivity.
  - rewrite (BiggerOrSame_step h cat 3 Hcat), E3. reflexivity.
Qed.

Lemma BiggerOrSame_half_precision_witness :
  (Real = Real \/ Real = Complex) /\
  BiggerOrSameHostTypeHelper x86_64 (Type_ Real 2)
    = {| Helper_Type := float; Helper_FortranType := Type_ Real 4 |}.
Proof.
  assert (Hcat : Real = Real \/ Real = Complex) by (left; reflexivity).
  split; [exact Hcat|].
  destruct (BiggerOrSame_half_precision x86_64 Real Hcat) as (_ & _ & P & _).
  rewrite P. reflexivity.
Defined.

(** X11: the inverse lookup undoes promotion: where a Real or Complex kind
    resolves to a type of the table, the Fortran type of the host type
    reported is the Fortran type reported. *)
Theorem FortranType_of_BiggerOrSameHostType (h : HostABI)
    (all : list CppType) (cat : TypeCategory) (KIND : Z) :
  cat = Real \/ cat = Complex ->
  BiggerOrSameHostTypeExists h [Type_ cat KIND] = true ->
  In (BiggerOrSameFortranTypeSupportedOnHost h (Type_ cat KIND)) all ->
  FortranType h all (BiggerOrSameHostType h (Type_ cat KIND))
    = BiggerOrSameFortranTypeSupportedOnHost h (Type_ cat KIND).
Proof.
  intros Hcat. rewrite BiggerOrSameHostTypeExists_one.
  unfold BiggerOrSameHostType, BiggerOrSameFortranTypeSupportedOnHost.
  rewrite (BiggerOrSame_chain h cat KIND Hcat).
  destruct (find _ (PromotionChain 4 KIND)) as [k|] eqn:F; simpl;
    [|discriminate].
  intros _ HIn. destruct (find_some _ _ F) as [_ E].
  apply HostTypeExists_true in E.
  rewrite FortranType_find.
  destruct (find _ all) as [U|] eqn:G.
  - destruct (find_some _ _ G) as [_ HS]. apply is_same_v_spec in HS.
    destruct (HostType_inj h (Type_ cat k) U E (eq_sym HS)) as [_ I].
    apply I. simpl. destruct Hcat as [-> | ->]; discriminate.
  - exfalso. pose proof (find_none _ _ G _ HIn) as N. simpl in N.
    rewrite is_same_v_refl in N. discriminate.
Qed.

Lemma FortranType_of_BiggerOrSameHostType_witness :
  (Real = Real \/ Real = Complex) /\
  BiggerOrSameHostTypeExists quad_only [Type_ Real 8] = true /\
  In (BiggerOrSameFortranTypeSupportedOnHost quad_only (Type_ Real 8))
     intrinsic_types /\
  FortranType quad_only intrinsic_types
    (BiggerOrSameHostType quad_only (Type_ Real 8)) = Type_ Real 16.
Proof.
  assert (Hcat : Real = Real \/ Real = Complex) by (left; reflexivity).
  assert (E : BiggerOrSameHostTypeExists quad_only [Type_ Real 8] = true)
    by reflexivity.
  assert (HIn : In (BiggerOrSameFortranTypeSupportedOnHost quad_only
                      (Type_ Real 8)) intrinsic_types)
    by (vm_compute; tauto).
  split; [exact Hcat|]. split; [exact E|]. split; [exact HIn|].
  rewrite (FortranType_of_BiggerOrSameHostType quad_only intrinsic_types
             Real 8 Hcat E HIn).
  reflexivity.
Defined.

(** ** More on the scalar casts *)

Lemma reinterpret_cast_exact n x mem :
  length x = n -> reinterpret_cast n x mem = x.
Proof.
  intros <-. rewrite reinterpret_cast_widen by lia.
  rewrite Nat.sub_diag. apply app_nil_r.
Qed.

Lemma reinterpret_cast_narrow n x mem :
  n <= length x -> reinterpret_cast n x mem = firstn n x.
Proof.
  intros L. unfold reinterpret_cast.
  replace (n - length x) with 0 by lia. simpl. rewrite app_nil_r.
  reflexivity.
Qed.

(** X13: an Integer kind that has a host type and whose scalar occupies
    [KIND] bytes, as its host type does, is cast both ways without change:
    each cast returns the bytes of the integer it is given and reads
    nothing beyond it, so that the two casts are inverse to each other. *)
Theorem Integer_cast_identity (h : HostABI)
    (sizeof_Scalar : TypeCategory -> Z -> nat) (KIND : Z)
    (x : list byte) (mem mem' : nat -> byte) :
  HostTypeExists h [Type_ Integer KIND] = true ->
  Z.of_nat (sizeof_Scalar Integer KIND) = KIND ->
  Z.of_nat (length x) = KIND ->
  CastFortranToHost h sizeof_Scalar (Type_ Integer KIND) x mem = Built x /\
  CastHostToFortran h sizeof_Scalar (Type_ Integer KIND) x mem = Built x /\
  bind (CastFortranToHost h sizeof_Scalar (Type_ Integer KIND) x mem)
       (fun y => CastHostToFortran h sizeof_Scalar (Type_ Integer KIND) y mem')
    = Built x /\
  bind (CastHostToFortran h sizeof_Scalar (Type_ Integer KIND) x mem)
       (fun y => CastFortranToHost h sizeof_Scalar (Type_ Integer KIND) y mem')
    = Built x.
Proof.
  intros E S L.
  assert (SH : Z.of_nat (sizeof h sizeof_Scalar
                           (HostType h (Type_ Integer KIND))) = KIND).
  { rewrite HostTypeExists_one in E. revert E.
    unfold HostType, HostTypeHelper, HostTypeHelper_Integer.
    destruct (Z.eqb_spec KIND 1) as [->|?]; [reflexivity|].
    destruct (Z.eqb_spec KIND 2) as [->|?]; [reflexivity|].
    destruct (Z.eqb_spec KIND 4) as [->|?]; [reflexivity|].
    destruct (Z.eqb_spec KIND 8) as [->|?]; [reflexivity|].
    destruct (Z.eqb_spec KIND 16) as [->|?]; [|discriminate].
    destruct (has_int128 h); [reflexivity|discriminate]. }
  assert (F : forall m,
    CastFortranToHost h sizeof_Scalar (Type_ Integer KIND) x m = Built x).
  { intros m. rewrite CastFortranToHost_plain, E by reflexivity.
    rewrite reinterpret_cast_exact by lia. reflexivity. }
  assert (G : forall m,
    CastHostToFortran h sizeof_Scalar (Type_ Integer KIND) x m = Built x).
  { intros m. rewrite CastHostToFortran_plain, E by reflexivity.
    rewrite reinterpret_cast_exact by (simpl; lia). reflexivity. }
  rewrite !F, !G. unfold bind. rewrite F, G. repeat split.
Qed.

Lemma Integer_cast_identity_witness :
  HostTypeExists x86_64 [Type_ Integer 4] = true /\
  Z.of_nat (kind_bytes Integer 4) = 4%Z /\
  Z.of_nat (length [x2a; x00; x00; x80]) = 4%Z /\
  CastFortranToHost x86_64 kind_bytes (Type_ Integer 4)
    [x2a; x00; x00; x80] (fun _ => xff) = Built [x2a; x00; x00; x80].
Proof.
  assert (E : HostTypeExists x86_64 [Type_ Integer 4] = true) by reflexivity.
  assert (S : Z.of_nat (kind_bytes Integer 4) = 4%Z) by reflexivity.
  assert (L : Z.of_nat (length [x2a; x00; x00; x80]) = 4%Z) by reflexivity.
  split; [exact E|]. split; [exact S|]. split; [exact L|].
  exact (proj1 (Integer_cast_identity x86_64 kind_bytes 4
                  [x2a; x00; x00; x80] (fun _ => xff) (fun _ => xee) E S L)).
Defined.

(** X17: outside Complex nothing compares the sizes: where the host type
    is smaller than the scalar, [CastFortranToHost] keeps the leading
    [sizeof(HostType<T>)] bytes of the scalar and drops the rest, so that
    there are two different scalars with the same host value. *)
Theorem CastFortranToHost_truncates (h : HostABI)
    (sizeof_Scalar : TypeCategory -> Z -> nat) (FTN_T : CppType) :
  HostTypeExists h [FTN_T] = true ->
  category_is_Complex FTN_T = false ->
  sizeof h sizeof_Scalar (HostType h FTN_T)
    < sizeof h sizeof_Scalar (Scalar FTN_T) ->
  (forall x mem,
     sizeof h sizeof_Scalar (HostType h FTN_T) <= length x ->
     CastFortranToHost h sizeof_Scalar FTN_T x mem
       = Built (firstn (sizeof h sizeof_Scalar (HostType h FTN_T)) x)) /\
  exists x x',
    length x = sizeof h sizeof_Scalar (Scalar FTN_T) /\
    length x' = sizeof h sizeof_Scalar (Scalar FTN_T) /\
    x <> x' /\
    forall mem,
      CastFortranToHost h sizeof_Scalar FTN_T x mem
        = CastFortranToHost h sizeof_Scalar FTN_T x' mem.
Proof.
  intros E C Hlt.
  assert (T : forall x mem,
     sizeof h sizeof_Scalar (HostType h FTN_T) <= length x ->
     CastFortranToHost h sizeof_Scalar FTN_T x mem
       = Built (firstn (sizeof h sizeof_Scalar (HostType h FTN_T)) x)).
  { intros x mem L. rewrite CastFortranToHost_plain, E by exact C.
    rewrite reinterpret_cast_narrow by exact L. reflexivity. }
  split; [exact T|].
  set (n := sizeof h sizeof_Scalar (HostType h FTN_T)) in *.
  set (s := sizeof h sizeof_Scalar (Scalar FTN_T)) in *.
  exists (repeat x00 n ++ repeat x00 (s - n)),
         (repeat x00 n ++ repeat x01 (s - n)).
  repeat split.
  - rewrite length_app, !repeat_length. lia.
  - rewrite length_app, !repeat_length. lia.
  - intros Q. apply app_inv_head in Q.
    destruct (s - n) as [|m] eqn:D; [lia|]. discriminate.
  - intros mem.
    rewrite !T by (rewrite length_app, !repeat_length; lia).
    rewrite !firstn_app_exact by apply repeat_length. reflexivity.
Qed.

Lemma CastFortranToHost_truncates_witness :
  HostTypeExists x86_64 [Type_ Logical 8] = true /\
  category_is_Complex (Type_ Logical 8) = false /\
  sizeof x86_64 kind_bytes (HostType x86_64 (Type_ Logical 8))
    < sizeof x86_64 kind_bytes (Scalar (Type_ Logical 8)) /\
  CastFortranToHost x86_64 kind_bytes (Type_ Logical 8)
    [x01; x02; x03; x04; x05; x06; x07; x08] (fun _ => xff) = Built [x01].
Proof.
  assert (E : HostTypeExists x86_64 [Type_ Logical 8] = true) by reflexivity.
  assert (C : category_is_Complex (Type_ Logical 8) = false) by reflexivity.
  assert (Hlt : sizeof x86_64 kind_bytes (HostType x86_64 (Type_ Logical 8))
                < sizeof x86_64 kind_bytes (Scalar (Type_ Logical 8)))
    by (vm_compute; lia).
  split; [exact E|]. split; [exact C|]. split; [exact Hlt|].
  destruct (CastFortranToHost_truncates x86_64 kind_bytes (Type_ Logical 8)
              E C Hlt) as [P _].
  rewrite P by (vm_compute; lia). reflexivity.
Defined.

(** ** Packs of types *)

Lemma BiggerOrSame_direct h T :
  HostTypeExists h [T] = true ->
  BiggerOrSameHostTypeHelper h T =
    {| Helper_Type := HostType h T; Helper_FortranType := T |}.
Proof.
  intros E. destruct (BiggerOrSame_shape T) as [(cat & KIND & -> & Hcat)|G].
  - rewrite (BiggerOrSame_step h cat KIND Hcat), E. reflexivity.
  - rewrite (G h), E. reflexivity.
Qed.

(** X18: a pack of types that all have host types needs no promotion:
    [BiggerOrSameHostTypeExists] holds of the pack, and every type of the
    pack resolves to itself with its own host type.  The empty pack
    satisfies both tests. *)
Theorem HostTypeExists_pack_no_promotion (h : HostABI) (Ts : list CppType) :
  HostTypeExists h Ts = true ->
  BiggerOrSameHostTypeExists h Ts = true /\
  forall T, In T Ts ->
    BiggerOrSameFortranTypeSupportedOnHost h T = T /\
    BiggerOrSameHostType h T = HostType h T.
Proof.
  unfold HostTypeExists, BiggerOrSameHostTypeExists.
  rewrite !forallb_forall. intros A.
  assert (D : forall T, In T Ts ->
    BiggerOrSameHostTypeHelper h T =
      {| Helper_Type := HostType h T; Helper_FortranType := T |}).
  { intros T HIn. apply BiggerOrSame_direct.
    rewrite HostTypeExists_one. apply A. exact HIn. }
  split.
  - intros T HIn. unfold BiggerOrSameHostType. rewrite (D T HIn). simpl.
    apply A. exact HIn.
  - intros T HIn.
    unfold BiggerOrSameFortranTypeSupportedOnHost, BiggerOrSameHostType.
    rewrite (D T HIn). split; reflexivity.
Qed.

Lemma HostTypeExists_pack_no_promotion_witness :
  HostTypeExists x86_64 [Type_ Integer 8; Type_ Real 10; Type_ Complex 4]
    = true /\
  HostTypeExists x86_64 [] = true /\
  BiggerOrSameHostTypeExists x86_64
    [Type_ Integer 8; Type_ Real 10; Type_ Complex 4] = true.
Proof.
  assert (E : HostTypeExists x86_64
                [Type_ Integer 8; Type_ Real 10; Type_ Complex 4] = true)
    by reflexivity.
  split; [exact E|]. split; [reflexivity|].
  exact (proj1 (HostTypeExists_pack_no_promotion x86_64 _ E)).
Defined.
